(** * FiniteDifferenceTypes.h : configuration types of the finite-difference kernels

    A shallow embedding of the declarations of [FiniteDifferenceTypes.h]:
    the three [enum class]es, [getNumberOfSteps], the boundary-condition
    classes and the two input bundles with their constructors and their
    (defaulted) assignment operators.

    Conventions.
    - An [enum class] has underlying type [int]; [SolverType] declares two
      enumerators with the same value ([ExplicitEuler] and [__BEGIN__]), so
      it is embedded as its underlying integer, with one named constant per
      enumerator and the declaration kept as a table of (name, value) pairs.
      The two other enumerations have no aliases and are inductive types.
    - [double] is the primitive IEEE-754 binary64 type.
    - A constructor call either yields an object or raises; the outcome is
      explicit. *)

From Stdlib Require Import ZArith NArith List String Bool Lia Floats.
Import ListNotations.
Local Open Scope Z_scope.

(* ------------------------------------------------------------------ *)
(** ** SolverType (lines 11-45) *)

Module SolverType.

(** The underlying type of an [enum class] without an explicit base. *)
Definition t : Type := Z.

Definition Null : t := 0.

(* Single-Step *)
Definition ExplicitEuler : t := 1.
Definition ImplicitEuler : t := 2.
Definition CrankNicolson : t := 3.

(* Runge-Kutta *)
Definition RungeKuttaRalston : t := 4.
Definition RungeKutta3 : t := 5.
Definition RungeKutta4 : t := 6.
Definition RungeKuttaThreeEight : t := 7.
Definition RungeKuttaGaussLegendre4 : t := 8.

(* Richardson Extrapolation *)
Definition RichardsonExtrapolation2 : t := 9.
Definition RichardsonExtrapolation3 : t := 10.

(* Multi-Step *)
Definition AdamsBashforth2 : t := 11.
Definition AdamsMouldon2 : t := 12.

Definition __BEGIN__ : t := 1.
Definition __END__ : t := 13.

(** The enumerator list of the declaration, in source order. *)
Definition enumerators : list (string * t) :=
  [ ("Null", Null);
    ("ExplicitEuler", ExplicitEuler);
    ("ImplicitEuler", ImplicitEuler);
    ("CrankNicolson", CrankNicolson);
    ("RungeKuttaRalston", RungeKuttaRalston);
    ("RungeKutta3", RungeKutta3);
    ("RungeKutta4", RungeKutta4);
    ("RungeKuttaThreeEight", RungeKuttaThreeEight);
    ("RungeKuttaGaussLegendre4", RungeKuttaGaussLegendre4);
    ("RichardsonExtrapolation2", RichardsonExtrapolation2);
    ("RichardsonExtrapolation3", RichardsonExtrapolation3);
    ("AdamsBashforth2", AdamsBashforth2);
    ("AdamsMouldon2", AdamsMouldon2);
    ("__BEGIN__", __BEGIN__);
    ("__END__", __END__) ]%string.

(** Name resolution [SolverType::name]: the value of the enumerator of
    that name, if the declaration has one. *)
Fixpoint lookup (name : string) (l : list (string * t)) : option t :=
  match l with
  | [] => None
  | (n, v) :: rest => if String.eqb n name then Some v else lookup name rest
  end.

Definition enumerator (name : string) : option t := lookup name enumerators.

(** The values an object of the enumeration type can hold: every value of
    the underlying 32-bit [int]. *)
Definition INT_MIN : Z := - 2 ^ 31.
Definition INT_MAX : Z := 2 ^ 31 - 1.
Definition representable (s : t) : bool := (INT_MIN <=? s) && (s <=? INT_MAX).

(** The range delimited by the two markers, [__BEGIN__ <= s < __END__]. *)
Definition inRange (s : t) : bool := (__BEGIN__ <=? s) && (s <? __END__).

(** The solver families: the enumerators declared between [Null] and the
    two range markers. *)
Definition families : list (string * t) :=
  firstn 12 (skipn 1 enumerators).

End SolverType.

(** [static constexpr unsigned getNumberOfSteps(const SolverType)]
    (lines 47-57): a [switch] with two labels sharing [return 2] and a
    [default] label. *)
Definition getNumberOfSteps (solverType : SolverType.t) : N :=
  if (solverType =? SolverType.AdamsBashforth2)
     || (solverType =? SolverType.AdamsMouldon2)
  then 2%N
  else 1%N.

(* ------------------------------------------------------------------ *)
(** ** The two other enumerations (lines 62-78) *)

Module SpaceDiscretizerType.
Inductive t : Type := Null | Centered | Upwind | LaxWendroff.

Definition value (x : t) : Z :=
  match x with Null => 0 | Centered => 1 | Upwind => 2 | LaxWendroff => 3 end.

Definition eqb (x y : t) : bool := value x =? value y.
End SpaceDiscretizerType.

Module BoundaryConditionType.
Inductive t : Type := Null | Dirichlet | Neumann | Periodic.

Definition value (x : t) : Z :=
  match x with Null => 0 | Dirichlet => 1 | Neumann => 2 | Periodic => 3 end.

Definition eqb (x y : t) : bool := value x =? value y.
End BoundaryConditionType.

(* ------------------------------------------------------------------ *)
(** ** Outcome of a call *)

(** The error conditions named by the design document.  The header itself
    contains no [throw]; the type is what a raising call would carry. *)
Inductive ErrorCondition : Type :=
| InvalidConfiguration
| UnsupportedSolver
| InvalidDiscretization
| InsufficientHistory
| SolveDidNotConverge.

Inductive Outcome (A : Type) : Type :=
| Constructed (a : A)
| Raised (e : ErrorCondition).

Arguments Constructed {A} a.
Arguments Raised {A} e.

Definition bind {A B : Type} (m : Outcome A) (k : A -> Outcome B) : Outcome B :=
  match m with
  | Constructed a => k a
  | Raised e => Raised e
  end.

Notation "x <- m ;; k" := (bind m (fun x => k))
  (at level 61, m at next level, right associativity).

(** A parameter with a default argument: the default expression is
    evaluated at the call site when the argument is omitted. *)
Definition orDefault {A : Type} (arg : option A) (dflt : Outcome A) : Outcome A :=
  match arg with
  | Some a => Constructed a
  | None => dflt
  end.

Definition succeeded {A : Type} (m : Outcome A) : bool :=
  match m with Constructed _ => true | Raised _ => false end.

(* ------------------------------------------------------------------ *)
(** ** Boundary conditions (lines 80-131) *)

Definition double : Type := float.

Record BoundaryCondition : Type := mkBoundaryCondition {
  type : BoundaryConditionType.t;
  value : double
}.

(** [BoundaryCondition(type = Neumann, value = 0.0) : type(type), value(value) {}] *)
Definition BoundaryCondition_ctor
    (type : option BoundaryConditionType.t) (value : option double)
  : Outcome BoundaryCondition :=
  t <- orDefault type (Constructed BoundaryConditionType.Neumann) ;;
  v <- orDefault value (Constructed 0%float) ;;
  Constructed {| type := t; value := v |}.

Record BoundaryCondition1D : Type := mkBoundaryCondition1D {
  left : BoundaryCondition;
  right : BoundaryCondition
}.

(** [BoundaryCondition1D(left = BoundaryCondition(), right = BoundaryCondition())
       : left(left), right(right) {}] *)
Definition BoundaryCondition1D_ctor
    (left right : option BoundaryCondition) : Outcome BoundaryCondition1D :=
  l <- orDefault left (BoundaryCondition_ctor None None) ;;
  r <- orDefault right (BoundaryCondition_ctor None None) ;;
  Constructed {| left := l; right := r |}.

(** [class BoundaryCondition2D : public BoundaryCondition1D]: the object
    consists of its base-class subobject followed by its own members; the
    derived-to-base conversion selects the subobject. *)
Record BoundaryCondition2D : Type := mkBoundaryCondition2D {
  base1D :> BoundaryCondition1D;
  down : BoundaryCondition;
  up : BoundaryCondition
}.

(** [BoundaryCondition2D(left = .., right = .., down = .., up = ..)
       : BoundaryCondition1D(left, right), down(down), up(up) {}] *)
Definition BoundaryCondition2D_ctor
    (left right down up : option BoundaryCondition) : Outcome BoundaryCondition2D :=
  l <- orDefault left (BoundaryCondition_ctor None None) ;;
  r <- orDefault right (BoundaryCondition_ctor None None) ;;
  d <- orDefault down (BoundaryCondition_ctor None None) ;;
  u <- orDefault up (BoundaryCondition_ctor None None) ;;
  b <- BoundaryCondition1D_ctor (Some l) (Some r) ;;
  Constructed {| base1D := b; down := d; up := u |}.

(** *** The class declarations themselves

    Which classes a class names as base and which data members it declares
    (name and type), as written in the header. *)

Inductive ClassName : Type :=
| CBoundaryCondition
| CBoundaryCondition1D
| CBoundaryCondition2D
| CFiniteDifferenceInput1D
| CFiniteDifferenceInput2D.

Inductive MemberType : Type :=
| TDouble
| TMemoryBuffer
| TSolverType
| TSpaceDiscretizerType
| TBoundaryConditionType
| TClass (c : ClassName).

Record ClassDecl : Type := mkClassDecl {
  publicBases : list ClassName;
  dataMembers : list (string * MemberType)
}.

Definition declaration (c : ClassName) : ClassDecl :=
  match c with
  | CBoundaryCondition =>
      {| publicBases := [];
         dataMembers := [("type", TBoundaryConditionType); ("value", TDouble)]%string |}
  | CBoundaryCondition1D =>
      {| publicBases := [];
         dataMembers := [("left", TClass CBoundaryCondition);
                         ("right", TClass CBoundaryCondition)]%string |}
  | CBoundaryCondition2D =>
      {| publicBases := [CBoundaryCondition1D];
         dataMembers := [("down", TClass CBoundaryCondition);
                         ("up", TClass CBoundaryCondition)]%string |}
  | CFiniteDifferenceInput1D =>
      {| publicBases := [];
         dataMembers := [("dt", TDouble);
                         ("grid", TMemoryBuffer);
                         ("velocity", TMemoryBuffer);
                         ("diffusion", TMemoryBuffer);
                         ("solverType", TSolverType);
                         ("spaceDiscretizerType", TSpaceDiscretizerType);
                         ("boundaryConditions", TClass CBoundaryCondition1D)]%string |}
  | CFiniteDifferenceInput2D =>
      {| publicBases := [];
         dataMembers := [("dt", TDouble);
                         ("xGrid", TMemoryBuffer);
                         ("yGrid", TMemoryBuffer);
                         ("xVelocity", TMemoryBuffer);
                         ("yVelocity", TMemoryBuffer);
                         ("diffusion", TMemoryBuffer);
                         ("solverType", TSolverType);
                         ("spaceDiscretizerType", TSpaceDiscretizerType);
                         ("boundaryConditions", TClass CBoundaryCondition2D)]%string |}
  end.

Definition ClassName_eqb (a b : ClassName) : bool :=
  match a, b with
  | CBoundaryCondition, CBoundaryCondition
  | CBoundaryCondition1D, CBoundaryCondition1D
  | CBoundaryCondition2D, CBoundaryCondition2D
  | CFiniteDifferenceInput1D, CFiniteDifferenceInput1D
  | CFiniteDifferenceInput2D, CFiniteDifferenceInput2D => true
  | _, _ => false
  end.

(** [derivesFrom d b]: [b] is listed as a base class of [d]. *)
Definition derivesFrom (d b : ClassName) : bool :=
  existsb (ClassName_eqb b) (publicBases (declaration d)).

(** [hasMemberOf d c]: [d] declares a data member of class type [c]. *)
Definition hasMemberOf (d c : ClassName) : bool :=
  existsb (fun m => match snd m with
                    | TClass c' => ClassName_eqb c c'
                    | _ => false
                    end)
          (dataMembers (declaration d)).

(* ------------------------------------------------------------------ *)
(** ** Input bundles (lines 133-267) *)

(** Modelled from the spec: [MemoryBuffer] is declared in [Types.h], which
    is not among the sources.  The design document describes the numeric
    array resource as a fixed-length, randomly-indexable sequence of real
    numbers; it is taken here as the sequence of its elements. *)
Definition MemoryBuffer : Type := list double.

Module FiniteDifferenceInput1D.

Record t : Type := mk {
  dt : double;
  grid : MemoryBuffer;
  velocity : MemoryBuffer;
  diffusion : MemoryBuffer;
  solverType : SolverType.t;
  spaceDiscretizerType : SpaceDiscretizerType.t;
  boundaryConditions : BoundaryCondition1D
}.

(** The constructor (lines 170-186): seven member initialisers and an
    empty body. *)
Definition ctor (dt : double) (grid velocity diffusion : MemoryBuffer)
    (solverType : SolverType.t)
    (spaceDiscretizerType : SpaceDiscretizerType.t)
    (boundaryConditions : BoundaryCondition1D) : Outcome t :=
  Constructed {| dt := dt;
                 grid := grid;
                 velocity := velocity;
                 diffusion := diffusion;
                 solverType := solverType;
                 spaceDiscretizerType := spaceDiscretizerType;
                 boundaryConditions := boundaryConditions |}.

(** What the holder of an object can do to it.  The class is a [struct]:
    its data members are public and not [const], so each is assignable;
    copy and move assignment are declared [= default] (lines 191-192). *)
Inductive Write : Type :=
| Write_dt (v : double)
| Write_grid (v : MemoryBuffer)
| Write_velocity (v : MemoryBuffer)
| Write_diffusion (v : MemoryBuffer)
| Write_solverType (v : SolverType.t)
| Write_spaceDiscretizerType (v : SpaceDiscretizerType.t)
| Write_boundaryConditions (v : BoundaryCondition1D)
| Assign (rhs : t).

Definition exec (w : Write) (self : t) : t :=
  match w with
  | Write_dt v =>
      mk v (grid self) (velocity self) (diffusion self) (solverType self)
         (spaceDiscretizerType self) (boundaryConditions self)
  | Write_grid v =>
      mk (dt self) v (velocity self) (diffusion self) (solverType self)
         (spaceDiscretizerType self) (boundaryConditions self)
  | Write_velocity v =>
      mk (dt self) (grid self) v (diffusion self) (solverType self)
         (spaceDiscretizerType self) (boundaryConditions self)
  | Write_diffusion v =>
      mk (dt self) (grid self) (velocity self) v (solverType self)
         (spaceDiscretizerType self) (boundaryConditions self)
  | Write_solverType v =>
      mk (dt self) (grid self) (velocity self) (diffusion self) v
         (spaceDiscretizerType self) (boundaryConditions self)
  | Write_spaceDiscretizerType v =>
      mk (dt self) (grid self) (velocity self) (diffusion self)
         (solverType self) v (boundaryConditions self)
  | Write_boundaryConditions v =>
      mk (dt self) (grid self) (velocity self) (diffusion self)
         (solverType self) (spaceDiscretizerType self) v
  | Assign rhs => rhs
  end.

End FiniteDifferenceInput1D.

Module FiniteDifferenceInput2D.

Record t : Type := mk {
  dt : double;
  xGrid : MemoryBuffer;
  yGrid : MemoryBuffer;
  xVelocity : MemoryBuffer;
  yVelocity : MemoryBuffer;
  diffusion : MemoryBuffer;
  solverType : SolverType.t;
  spaceDiscretizerType : SpaceDiscretizerType.t;
  boundaryConditions : BoundaryCondition2D
}.

(** The constructor (lines 240-260): nine member initialisers and an
    empty body. *)
Definition ctor (dt : double)
    (xGrid yGrid xVelocity yVelocity diffusion : MemoryBuffer)
    (solverType : SolverType.t)
    (spaceDiscretizerType : SpaceDiscretizerType.t)
    (boundaryConditions : BoundaryCondition2D) : Outcome t :=
  Constructed {| dt := dt;
                 xGrid := xGrid;
                 yGrid := yGrid;
                 xVelocity := xVelocity;
                 yVelocity := yVelocity;
                 diffusion := diffusion;
                 solverType := solverType;
                 spaceDiscretizerType := spaceDiscretizerType;
                 boundaryConditions := boundaryConditions |}.

(** Public non-[const] data members and defaulted assignment
    (lines 265-266), as for the 1D bundle. *)
Inductive Write : Type :=
| Write_dt (v : double)
| Write_xGrid (v : MemoryBuffer)
| Write_yGrid (v : MemoryBuffer)
| Write_xVelocity (v : MemoryBuffer)
| Write_yVelocity (v : MemoryBuffer)
| Write_diffusion (v : MemoryBuffer)
| Write_solverType (v : SolverType.t)
| Write_spaceDiscretizerType (v : SpaceDiscretizerType.t)
| Write_boundaryConditions (v : BoundaryCondition2D)
| Assign (rhs : t).

Definition exec (w : Write) (self : t) : t :=
  match w with
  | Write_dt v =>
      mk v (xGrid self) (yGrid self) (xVelocity self) (yVelocity self)
         (diffusion self) (solverType self) (spaceDiscretizerType self)
         (boundaryConditions self)
  | Write_xGrid v =>
      mk (dt self) v (yGrid self) (xVelocity self) (yVelocity self)
         (diffusion self) (solverType self) (spaceDiscretizerType self)
         (boundaryConditions self)
  | Write_yGrid v =>
      mk (dt self) (xGrid self) v (xVelocity self) (yVelocity self)
         (diffusion self) (solverType self) (spaceDiscretizerType self)
         (boundaryConditions self)
  | Write_xVelocity v =>
      mk (dt self) (xGrid self) (yGrid self) v (yVelocity self)
         (diffusion self) (solverType self) (spaceDiscretizerType self)
         (boundaryConditions self)
  | Write_yVelocity v =>
      mk (dt self) (xGrid self) (yGrid self) (xVelocity self) v
         (diffusion self) (solverType self) (spaceDiscretizerType self)
         (boundaryConditions self)
  | Write_diffusion v =>
      mk (dt self) (xGrid self) (yGrid self) (xVelocity self)
         (yVelocity self) v (solverType self) (spaceDiscretizerType self)
         (boundaryConditions self)
  | Write_solverType v =>
      mk (dt self) (xGrid self) (yGrid self) (xVelocity self)
         (yVelocity self) (diffusion self) v (spaceDiscretizerType self)
         (boundaryConditions self)
  | Write_spaceDiscretizerType v =>
      mk (dt self) (xGrid self) (yGrid self) (xVelocity self)
         (yVelocity self) (diffusion self) (solverType self) v
         (boundaryConditions self)
  | Write_boundaryConditions v =>
      mk (dt self) (xGrid self) (yGrid self) (xVelocity self)
         (yVelocity self) (diffusion self) (solverType self)
         (spaceDiscretizerType self) v
  | Assign rhs => rhs
  end.

End FiniteDifferenceInput2D.

(* ------------------------------------------------------------------ *)
(** ** The data-model invariants, as the design document words them

    These predicates are not code of the header: they are the conditions
    the design document puts on a configuration, written down so that the
    constructors can be compared with them. *)

Module DataModel.

Definition isPeriodic (b : BoundaryCondition) : bool :=
  BoundaryConditionType.eqb (type b) BoundaryConditionType.Periodic.

(** Exactly one side of an axis pair is periodic. *)
Definition mixedPeriodic (a b : BoundaryCondition) : bool :=
  xorb (isPeriodic a) (isPeriodic b).

Definition consistent1D (bc : BoundaryCondition1D) : bool :=
  negb (mixedPeriodic (left bc) (right bc)).

Definition consistent2D (bc : BoundaryCondition2D) : bool :=
  negb (mixedPeriodic (left bc) (right bc))
  && negb (mixedPeriodic (down bc) (up bc)).

Fixpoint strictlyIncreasing (g : MemoryBuffer) : bool :=
  match g with
  | a :: (b :: _) as rest => (a <? b)%float && strictlyIncreasing rest
  | _ => true
  end.

Definition positive (dt : double) : bool := (0 <? dt)%float.

Definition validInput1D (dt : double) (grid velocity diffusion : MemoryBuffer)
    (solverType : SolverType.t)
    (spaceDiscretizerType : SpaceDiscretizerType.t)
    (bc : BoundaryCondition1D) : bool :=
  positive dt
  && (3 <=? List.length grid)%nat
  && (List.length velocity =? List.length grid)%nat
  && (List.length diffusion =? List.length grid)%nat
  && strictlyIncreasing grid
  && consistent1D bc
  && negb (solverType =? SolverType.Null)
  && negb (SpaceDiscretizerType.eqb spaceDiscretizerType
                                    SpaceDiscretizerType.Null).

Definition alignedWith (field axis : MemoryBuffer) (full : nat) : bool :=
  (List.length field =? List.length axis)%nat || (List.length field =? full)%nat.

Definition validInput2D (dt : double)
    (xGrid yGrid xVelocity yVelocity diffusion : MemoryBuffer)
    (solverType : SolverType.t)
    (spaceDiscretizerType : SpaceDiscretizerType.t)
    (bc : BoundaryCondition2D) : bool :=
  positive dt
  && (3 <=? List.length xGrid)%nat
  && (3 <=? List.length yGrid)%nat
  && alignedWith xVelocity xGrid (List.length xGrid * List.length yGrid)
  && alignedWith yVelocity yGrid (List.length xGrid * List.length yGrid)
  && (List.length diffusion =? List.length xGrid * List.length yGrid)%nat
  && strictlyIncreasing xGrid
  && strictlyIncreasing yGrid
  && consistent2D bc
  && negb (solverType =? SolverType.Null)
  && negb (SpaceDiscretizerType.eqb spaceDiscretizerType
                                    SpaceDiscretizerType.Null).

End DataModel.

(* ------------------------------------------------------------------ *)
(** ** Solver dispatch *)

Module Dispatcher.

(** The time-integration scheme a step runs. *)
Inductive Scheme : Type :=
| StepExplicitEuler
| StepImplicitEuler
| StepCrankNicolson
| StepRungeKuttaRalston
| StepRungeKutta3
| StepRungeKutta4
| StepRungeKuttaThreeEight
| StepRungeKuttaGaussLegendre4
| StepRichardsonExtrapolation2
| StepRichardsonExtrapolation3
| StepAdamsBashforth2
| StepAdamsMouldon2.

(** Modelled from the spec: the dispatcher ([Advance]) is not among the
    sources.  The design document describes it as an exhaustive match on
    the solver type, one branch per family, with [Null] and out-of-range
    values rejected with [UnsupportedSolver] at the boundary of the match.
    Only the selection of the branch is modelled; the numerical step is
    not. *)
Definition dispatch (solverType : SolverType.t) : Outcome Scheme :=
  if solverType =? SolverType.ExplicitEuler then Constructed StepExplicitEuler
  else if solverType =? SolverType.ImplicitEuler then Constructed StepImplicitEuler
  else if solverType =? SolverType.CrankNicolson then Constructed StepCrankNicolson
  else if solverType =? SolverType.RungeKuttaRalston then Constructed StepRungeKuttaRalston
  else if solverType =? SolverType.RungeKutta3 then Constructed StepRungeKutta3
  else if solverType =? SolverType.RungeKutta4 then Constructed StepRungeKutta4
  else if solverType =? SolverType.RungeKuttaThreeEight then Constructed StepRungeKuttaThreeEight
  else if solverType =? SolverType.RungeKuttaGaussLegendre4 then Constructed StepRungeKuttaGaussLegendre4
  else if solverType =? SolverType.RichardsonExtrapolation2 then Constructed StepRichardsonExtrapolation2
  else if solverType =? SolverType.RichardsonExtrapolation3 then Constructed StepRichardsonExtrapolation3
  else if solverType =? SolverType.AdamsBashforth2 then Constructed StepAdamsBashforth2
  else if solverType =? SolverType.AdamsMouldon2 then Constructed StepAdamsMouldon2
  else Raised UnsupportedSolver.

End Dispatcher.

(* ------------------------------------------------------------------ *)
(** ** Concrete configurations used below *)

Module Examples.

Definition neumann0 : BoundaryCondition :=
  {| type := BoundaryConditionType.Neumann; value := 0%float |}.
Definition periodic0 : BoundaryCondition :=
  {| type := BoundaryConditionType.Periodic; value := 0%float |}.
Definition dirichlet0 : BoundaryCondition :=
  {| type := BoundaryConditionType.Dirichlet; value := 0%float |}.

Definition bcPlain1D : BoundaryCondition1D :=
  {| left := neumann0; right := neumann0 |}.
Definition bcPeriodic1D : BoundaryCondition1D :=
  {| left := periodic0; right := periodic0 |}.
(** Left side periodic, right side not. *)
Definition bcMixed1D : BoundaryCondition1D :=
  {| left := periodic0; right := neumann0 |}.

Definition bcPlain2D : BoundaryCondition2D :=
  {| base1D := bcPlain1D; down := neumann0; up := neumann0 |}.
(** Down side periodic, up side not. *)
Definition bcMixed2D : BoundaryCondition2D :=
  {| base1D := bcPlain1D; down := periodic0; up := dirichlet0 |}.

Definition grid3 : MemoryBuffer := [0; 1; 2]%float.
Definition gridDown : MemoryBuffer := [0; 2; 1]%float.
Definition zeros3 : MemoryBuffer := [0; 0; 0]%float.
Definition ones3 : MemoryBuffer := [1; 1; 1]%float.
Definition ones9 : MemoryBuffer := [1; 1; 1; 1; 1; 1; 1; 1; 1]%float.

(** For one argument list of the 1D constructor: whether the design
    document calls it valid, and whether the constructor returns an
    object. *)
Definition probe1D (dt : double) (grid velocity diffusion : MemoryBuffer)
    (solverType : SolverType.t)
    (spaceDiscretizerType : SpaceDiscretizerType.t)
    (bc : BoundaryCondition1D) : bool * bool :=
  (DataModel.validInput1D dt grid velocity diffusion solverType
                          spaceDiscretizerType bc,
   succeeded (FiniteDifferenceInput1D.ctor dt grid velocity diffusion
                solverType spaceDiscretizerType bc)).

Definition probe2D (dt : double)
    (xGrid yGrid xVelocity yVelocity diffusion : MemoryBuffer)
    (solverType : SolverType.t)
    (spaceDiscretizerType : SpaceDiscretizerType.t)
    (bc : BoundaryCondition2D) : bool * bool :=
  (DataModel.validInput2D dt xGrid yGrid xVelocity yVelocity diffusion
                          solverType spaceDiscretizerType bc,
   succeeded (FiniteDifferenceInput2D.ctor dt xGrid yGrid xVelocity
                yVelocity diffusion solverType spaceDiscretizerType bc)).

(** A configuration the design document calls valid. *)
Definition input1D : FiniteDifferenceInput1D.t :=
  FiniteDifferenceInput1D.mk 0.5%float grid3 zeros3 ones3
    SolverType.ExplicitEuler SpaceDiscretizerType.Centered bcPlain1D.

Definition input2D : FiniteDifferenceInput2D.t :=
  FiniteDifferenceInput2D.mk 0.5%float grid3 grid3 zeros3 zeros3 ones9
    SolverType.ExplicitEuler SpaceDiscretizerType.Centered bcPlain2D.

End Examples.

(* ------------------------------------------------------------------ *)
(** ** Notions used to state how the operations compose *)

(** The value a parameter takes: the argument, or the default when the
    argument is omitted. *)
Definition argOr {A : Type} (arg : option A) (dflt : A) : A :=
  match arg with
  | Some a => a
  | None => dflt
  end.

(** What [BoundaryCondition()] denotes (line 85). *)
Definition zeroFlux : BoundaryCondition :=
  {| type := BoundaryConditionType.Neumann; value := 0%float |}.





(** A defaulted copy assignment assigns the members one by one, in
    declaration order. *)
Definition memberwise1D (rhs : FiniteDifferenceInput1D.t)
  : list FiniteDifferenceInput1D.Write :=
  [ FiniteDifferenceInput1D.Write_dt (FiniteDifferenceInput1D.dt rhs);
    FiniteDifferenceInput1D.Write_grid (FiniteDifferenceInput1D.grid rhs);
    FiniteDifferenceInput1D.Write_velocity (FiniteDifferenceInput1D.velocity rhs);
    FiniteDifferenceInput1D.Write_diffusion (FiniteDifferenceInput1D.diffusion rhs);
    FiniteDifferenceInput1D.Write_solverType (FiniteDifferenceInput1D.solverType rhs);
    FiniteDifferenceInput1D.Write_spaceDiscretizerType
      (FiniteDifferenceInput1D.spaceDiscretizerType rhs);
    FiniteDifferenceInput1D.Write_boundaryConditions
      (FiniteDifferenceInput1D.boundaryConditions rhs) ].

Definition memberwise2D (rhs : FiniteDifferenceInput2D.t)
  : list FiniteDifferenceInput2D.Write :=
  [ FiniteDifferenceInput2D.Write_dt (FiniteDifferenceInput2D.dt rhs);
    FiniteDifferenceInput2D.Write_xGrid (FiniteDifferenceInput2D.xGrid rhs);
    FiniteDifferenceInput2D.Write_yGrid (FiniteDifferenceInput2D.yGrid rhs);
    FiniteDifferenceInput2D.Write_xVelocity (FiniteDifferenceInput2D.xVelocity rhs);
    FiniteDifferenceInput2D.Write_yVelocity (FiniteDifferenceInput2D.yVelocity rhs);
    FiniteDifferenceInput2D.Write_diffusion (FiniteDifferenceInput2D.diffusion rhs);
    FiniteDifferenceInput2D.Write_solverType (FiniteDifferenceInput2D.solverType rhs);
    FiniteDifferenceInput2D.Write_spaceDiscretizerType
      (FiniteDifferenceInput2D.spaceDiscretizerType rhs);
    FiniteDifferenceInput2D.Write_boundaryConditions
      (FiniteDifferenceInput2D.boundaryConditions rhs) ].

(** A sequence of statements on one object, executed first to last. *)
Definition run1D (ws : list FiniteDifferenceInput1D.Write)
    (self : FiniteDifferenceInput1D.t) : FiniteDifferenceInput1D.t :=
  fold_left (fun acc w => FiniteDifferenceInput1D.exec w acc) ws self.

Definition run2D (ws : list FiniteDifferenceInput2D.Write)
    (self : FiniteDifferenceInput2D.t) : FiniteDifferenceInput2D.t :=
  fold_left (fun acc w => FiniteDifferenceInput2D.exec w acc) ws self.




(* ------------------------------------------------------------------ *)
(** * Properties *)

(** ** SolverType and getNumberOfSteps *)

Lemma families_values :
  map snd SolverType.families = [1; 2; 3; 4; 5; 6; 7; 8; 9; 10; 11; 12].
Proof. reflexivity. Qed.

Lemma In_families_bounds (s : SolverType.t) :
  In s (map snd SolverType.families) <-> 1 <= s < 13.
Proof.
  rewrite families_values. simpl. lia.
Qed.

Lemma inRange_bounds (s : SolverType.t) :
  SolverType.inRange s = true <-> 1 <= s < 13.
Proof.
  unfold SolverType.inRange, SolverType.__BEGIN__, SolverType.__END__.
  rewrite andb_true_iff, Z.leb_le, Z.ltb_lt. reflexivity.
Qed.

Lemma getNumberOfSteps_two (s : SolverType.t) :
  getNumberOfSteps s = 2%N <->
  s = SolverType.AdamsBashforth2 \/ s = SolverType.AdamsMouldon2.
Proof.
  unfold getNumberOfSteps.
  destruct (Z.eqb_spec s SolverType.AdamsBashforth2) as [-> | Hab]; simpl.
  - split; auto.
  - destruct (Z.eqb_spec s SolverType.AdamsMouldon2) as [-> | Ham]; simpl.
    + split; auto.
    + split; [discriminate | intros [H | H]; contradiction].
Qed.

Lemma getNumberOfSteps_range (s : SolverType.t) :
  getNumberOfSteps s = 1%N \/ getNumberOfSteps s = 2%N.
Proof.
  unfold getNumberOfSteps.
  destruct ((s =? SolverType.AdamsBashforth2) || (s =? SolverType.AdamsMouldon2));
    auto.
Qed.

Lemma getNumberOfSteps_families :
  map getNumberOfSteps (map snd SolverType.families)
  = [1; 1; 1; 1; 1; 1; 1; 1; 1; 1; 2; 2]%N.
Proof. reflexivity. Qed.

(** C1.  For every valid solver value (one of the twelve families),
    [getNumberOfSteps] returns 2 when the solver is [AdamsBashforth2] or
    the Adams-Moulton member (spelled [AdamsMouldon2] in the header), and 1
    for every other valid solver. *)
Theorem getNumberOfSteps_step_order (s : SolverType.t) :
  In s (map snd SolverType.families) ->
  (s = SolverType.AdamsBashforth2 \/ s = SolverType.AdamsMouldon2 ->
   getNumberOfSteps s = 2%N)
  /\ (s <> SolverType.AdamsBashforth2 /\ s <> SolverType.AdamsMouldon2 ->
      getNumberOfSteps s = 1%N).
Proof.
  intros _. split.
  - intros H. apply getNumberOfSteps_two. exact H.
  - intros [Hab Ham].
    destruct (getNumberOfSteps_range s) as [H1 | H2]; [exact H1 |].
    apply getNumberOfSteps_two in H2. destruct H2; contradiction.
Qed.

Lemma getNumberOfSteps_step_order_witness :
  In SolverType.AdamsBashforth2 (map snd SolverType.families)
  /\ getNumberOfSteps SolverType.AdamsBashforth2 = 2%N
  /\ In SolverType.RungeKutta4 (map snd SolverType.families)
  /\ getNumberOfSteps SolverType.RungeKutta4 = 1%N.
Proof.
  assert (Hab : In SolverType.AdamsBashforth2 (map snd SolverType.families))
    by (vm_compute; tauto).
  assert (Hrk : In SolverType.RungeKutta4 (map snd SolverType.families))
    by (vm_compute; tauto).
  split; [exact Hab | split; [| split; [exact Hrk |]]].
  - apply (proj1 (getNumberOfSteps_step_order SolverType.AdamsBashforth2 Hab)).
    left. reflexivity.
  - apply (proj2 (getNumberOfSteps_step_order SolverType.RungeKutta4 Hrk)).
    split; discriminate.
Defined.

Lemma markers_representable :
  SolverType.representable SolverType.Null = true
  /\ SolverType.representable SolverType.__BEGIN__ = true
  /\ SolverType.representable SolverType.__END__ = true.
Proof. repeat split. Qed.

(** C9.  [getNumberOfSteps] is defined on every value of the enumeration
    type, the [Null] value and the two range markers included: on every
    value other than [AdamsBashforth2] and [AdamsMouldon2] the [default]
    label is taken and the result is 1. *)
Theorem getNumberOfSteps_default_branch (s : SolverType.t) :
  s <> SolverType.AdamsBashforth2 ->
  s <> SolverType.AdamsMouldon2 ->
  getNumberOfSteps s = 1%N.
Proof.
  intros Hab Ham. unfold getNumberOfSteps.
  apply Z.eqb_neq in Hab. apply Z.eqb_neq in Ham.
  rewrite Hab, Ham. reflexivity.
Qed.

Lemma getNumberOfSteps_default_branch_witness :
  getNumberOfSteps SolverType.Null = 1%N
  /\ getNumberOfSteps SolverType.__BEGIN__ = 1%N
  /\ getNumberOfSteps SolverType.__END__ = 1%N
  /\ getNumberOfSteps SolverType.INT_MIN = 1%N
  /\ getNumberOfSteps SolverType.INT_MAX = 1%N.
Proof.
  split; [| split; [| split; [| split]]];
    apply getNumberOfSteps_default_branch; discriminate.
Defined.

(** C10.  The twelve families have the consecutive values 1 to 12,
    [__BEGIN__] is 1 (the value of [ExplicitEuler]), [__END__] is 13, and
    the half-open range from [__BEGIN__] to [__END__] holds exactly the
    values of the twelve families. *)
Theorem SolverType_values_consecutive :
  map snd SolverType.families = [1; 2; 3; 4; 5; 6; 7; 8; 9; 10; 11; 12]
  /\ SolverType.__BEGIN__ = 1
  /\ SolverType.__BEGIN__ = SolverType.ExplicitEuler
  /\ SolverType.__END__ = 13
  /\ SolverType.__END__ = SolverType.AdamsMouldon2 + 1
  /\ (forall s : SolverType.t,
        SolverType.inRange s = true <-> In s (map snd SolverType.families)).
Proof.
  repeat split; try reflexivity.
  - intros H. apply In_families_bounds, inRange_bounds, H.
  - intros H. apply inRange_bounds, In_families_bounds, H.
Qed.

(** C8.  The enumerators declared between [Null] and the range markers are
    twelve; eleven carry the names the claim lists, the twelfth is declared
    as [AdamsMouldon2]: the enumeration has no enumerator named
    [AdamsMoulton2]. *)
Theorem SolverType_enumerator_names :
  map fst SolverType.families
  = [ "ExplicitEuler"; "ImplicitEuler"; "CrankNicolson";
      "RungeKuttaRalston"; "RungeKutta3"; "RungeKutta4";
      "RungeKuttaThreeEight"; "RungeKuttaGaussLegendre4";
      "RichardsonExtrapolation2"; "RichardsonExtrapolation3";
      "AdamsBashforth2"; "AdamsMouldon2" ]%string
  /\ SolverType.enumerator "AdamsMoulton2" = None
  /\ SolverType.enumerator "AdamsMouldon2" = Some 12.
Proof. repeat split. Qed.

(** ** Boundary conditions *)

Lemma orDefault_Some {A : Type} (a : A) (dflt : Outcome A) :
  orDefault (Some a) dflt = Constructed a.
Proof. reflexivity. Qed.

Lemma bind_Constructed {A B : Type} (a : A) (k : A -> Outcome B) :
  bind (Constructed a) k = k a.
Proof. reflexivity. Qed.

Lemma BoundaryCondition_ctor_total
    (t : option BoundaryConditionType.t) (v : option double) :
  exists b, BoundaryCondition_ctor t v = Constructed b.
Proof.
  destruct t as [t |], v as [v |]; eexists; reflexivity.
Qed.

Lemma BoundaryCondition1D_ctor_total (l r : option BoundaryCondition) :
  exists b, BoundaryCondition1D_ctor l r = Constructed b.
Proof.
  destruct l as [l |], r as [r |]; eexists; reflexivity.
Qed.

Lemma BoundaryCondition2D_ctor_total (l r d u : option BoundaryCondition) :
  exists b, BoundaryCondition2D_ctor l r d u = Constructed b.
Proof.
  destruct l as [l |], r as [r |], d as [d |], u as [u |];
    eexists; reflexivity.
Qed.

(** C5.  A [BoundaryCondition] built with no arguments has type [Neumann]
    and value 0.0. *)
Theorem BoundaryCondition_default :
  exists b : BoundaryCondition,
    BoundaryCondition_ctor None None = Constructed b
    /\ type b = BoundaryConditionType.Neumann
    /\ value b = 0%float.
Proof.
  eexists. split; [reflexivity |]. split; reflexivity.
Qed.

Example paired_periodic_constructed :
  DataModel.consistent1D Examples.bcPeriodic1D = true
  /\ BoundaryCondition1D_ctor (Some Examples.periodic0) (Some Examples.periodic0)
     = Constructed Examples.bcPeriodic1D.
Proof. split; reflexivity. Qed.

(** C3, as stated, fails: a 1D condition whose left side alone is periodic,
    and a 2D condition whose down side alone is periodic, are both
    constructed. *)
Lemma mixed_periodic_constructed :
  DataModel.mixedPeriodic Examples.periodic0 Examples.neumann0 = true
  /\ BoundaryCondition1D_ctor (Some Examples.periodic0) (Some Examples.neumann0)
     = Constructed Examples.bcMixed1D
  /\ DataModel.mixedPeriodic Examples.periodic0 Examples.dirichlet0 = true
  /\ BoundaryCondition2D_ctor (Some Examples.neumann0) (Some Examples.neumann0)
       (Some Examples.periodic0) (Some Examples.dirichlet0)
     = Constructed Examples.bcMixed2D
  /\ ~ (forall l r : BoundaryCondition,
          DataModel.mixedPeriodic l r = true ->
          BoundaryCondition1D_ctor (Some l) (Some r) = Raised InvalidConfiguration).
Proof.
  split; [reflexivity |]. split; [reflexivity |].
  split; [reflexivity |]. split; [reflexivity |].
  intros H.
  specialize (H Examples.periodic0 Examples.neumann0 eq_refl).
  discriminate H.
Qed.

(** C3, amended.  The constructors of [BoundaryCondition1D] and
    [BoundaryCondition2D] check nothing: whatever the sides are, paired
    periodic or not, the object is constructed and holds each side as
    given. *)
Theorem BoundaryCondition_ctors_store_sides (l r d u : BoundaryCondition) :
  BoundaryCondition1D_ctor (Some l) (Some r)
  = Constructed {| left := l; right := r |}
  /\ BoundaryCondition2D_ctor (Some l) (Some r) (Some d) (Some u)
     = Constructed {| base1D := {| left := l; right := r |};
                      down := d; up := u |}
  /\ (forall ol or' od ou : option BoundaryCondition,
        succeeded (BoundaryCondition1D_ctor ol or') = true
        /\ succeeded (BoundaryCondition2D_ctor ol or' od ou) = true).
Proof.
  split; [reflexivity |]. split; [reflexivity |].
  intros ol or' od ou. split.
  - destruct (BoundaryCondition1D_ctor_total ol or') as [b ->]. reflexivity.
  - destruct (BoundaryCondition2D_ctor_total ol or' od ou) as [b ->]. reflexivity.
Qed.

(** C6, as stated, fails: [BoundaryCondition2D] names [BoundaryCondition1D]
    as a public base class and declares no member of that type. *)
Lemma BoundaryCondition2D_not_composed :
  ~ (hasMemberOf CBoundaryCondition2D CBoundaryCondition1D = true
     /\ derivesFrom CBoundaryCondition2D CBoundaryCondition1D = false).
Proof.
  intros [Hmember _]. vm_compute in Hmember. discriminate Hmember.
Qed.

(** C6, amended.  [BoundaryCondition2D] derives publicly from
    [BoundaryCondition1D]: its own data members are [down] and [up] only,
    [left] and [right] are those of its base-class subobject, which the
    constructor initialises with [BoundaryCondition1D(left, right)], and a
    2D condition converts to the 1D condition of its left and right sides. *)
Theorem BoundaryCondition2D_derives (l r d u : BoundaryCondition) :
  derivesFrom CBoundaryCondition2D CBoundaryCondition1D = true
  /\ hasMemberOf CBoundaryCondition2D CBoundaryCondition1D = false
  /\ map fst (dataMembers (declaration CBoundaryCondition2D))
     = ["down"; "up"]%string
  /\ exists b : BoundaryCondition2D,
       BoundaryCondition2D_ctor (Some l) (Some r) (Some d) (Some u)
       = Constructed b
       /\ BoundaryCondition1D_ctor (Some l) (Some r)
          = Constructed (b : BoundaryCondition1D)
       /\ left b = l /\ right b = r /\ down b = d /\ up b = u.
Proof.
  split; [reflexivity |]. split; [reflexivity |]. split; [reflexivity |].
  eexists. split; [reflexivity |]. simpl. repeat split.
Qed.

(** ** Input bundles *)

(** C2, as stated, fails: for each kind of invalid argument the claim lists
    (a [dt] that is not positive, buffers of different lengths, a grid that
    is not strictly increasing, a periodic side without its pair, a [Null]
    solver, a [Null] discretizer) the constructor returns an object. *)
Lemma invalid_inputs_constructed :
  Examples.probe1D 0%float Examples.grid3 Examples.zeros3 Examples.ones3
    SolverType.ExplicitEuler SpaceDiscretizerType.Centered Examples.bcPlain1D
  = (false, true)
  /\ Examples.probe1D 0.5%float Examples.grid3 [] Examples.ones3
       SolverType.ExplicitEuler SpaceDiscretizerType.Centered Examples.bcPlain1D
     = (false, true)
  /\ Examples.probe1D 0.5%float Examples.gridDown Examples.zeros3 Examples.ones3
       SolverType.ExplicitEuler SpaceDiscretizerType.Centered Examples.bcPlain1D
     = (false, true)
  /\ Examples.probe1D 0.5%float Examples.grid3 Examples.zeros3 Examples.ones3
       SolverType.ExplicitEuler SpaceDiscretizerType.Centered Examples.bcMixed1D
     = (false, true)
  /\ Examples.probe1D 0.5%float Examples.grid3 Examples.zeros3 Examples.ones3
       SolverType.Null SpaceDiscretizerType.Centered Examples.bcPlain1D
     = (false, true)
  /\ Examples.probe1D 0.5%float Examples.grid3 Examples.zeros3 Examples.ones3
       SolverType.ExplicitEuler SpaceDiscretizerType.Null Examples.bcPlain1D
     = (false, true)
  /\ Examples.probe2D (-1)%float Examples.grid3 Examples.gridDown [] []
       Examples.ones3 SolverType.Null SpaceDiscretizerType.Null
       Examples.bcMixed2D
     = (false, true)
  /\ FiniteDifferenceInput1D.ctor 0%float Examples.grid3 Examples.zeros3
       Examples.ones3 SolverType.ExplicitEuler SpaceDiscretizerType.Centered
       Examples.bcPlain1D
     <> Raised InvalidConfiguration.
Proof.
  repeat (split; [vm_compute; reflexivity |]).
  discriminate.
Qed.

(** C2, amended.  The constructors of [FiniteDifferenceInput1D] and
    [FiniteDifferenceInput2D] validate nothing: for every argument list the
    object is constructed and each field holds the argument of the same
    name. *)
Theorem FiniteDifferenceInput_ctors_store_arguments
    (dt : double) (grid velocity diffusion : MemoryBuffer)
    (xGrid yGrid xVelocity yVelocity : MemoryBuffer)
    (solverType : SolverType.t)
    (spaceDiscretizerType : SpaceDiscretizerType.t)
    (bc1 : BoundaryCondition1D) (bc2 : BoundaryCondition2D) :
  (exists x : FiniteDifferenceInput1D.t,
     FiniteDifferenceInput1D.ctor dt grid velocity diffusion solverType
       spaceDiscretizerType bc1 = Constructed x
     /\ FiniteDifferenceInput1D.dt x = dt
     /\ FiniteDifferenceInput1D.grid x = grid
     /\ FiniteDifferenceInput1D.velocity x = velocity
     /\ FiniteDifferenceInput1D.diffusion x = diffusion
     /\ FiniteDifferenceInput1D.solverType x = solverType
     /\ FiniteDifferenceInput1D.spaceDiscretizerType x = spaceDiscretizerType
     /\ FiniteDifferenceInput1D.boundaryConditions x = bc1)
  /\ (exists y : FiniteDifferenceInput2D.t,
        FiniteDifferenceInput2D.ctor dt xGrid yGrid xVelocity yVelocity
          diffusion solverType spaceDiscretizerType bc2 = Constructed y
        /\ FiniteDifferenceInput2D.dt y = dt
        /\ FiniteDifferenceInput2D.xGrid y = xGrid
        /\ FiniteDifferenceInput2D.yGrid y = yGrid
        /\ FiniteDifferenceInput2D.xVelocity y = xVelocity
        /\ FiniteDifferenceInput2D.yVelocity y = yVelocity
        /\ FiniteDifferenceInput2D.diffusion y = diffusion
        /\ FiniteDifferenceInput2D.solverType y = solverType
        /\ FiniteDifferenceInput2D.spaceDiscretizerType y = spaceDiscretizerType
        /\ FiniteDifferenceInput2D.boundaryConditions y = bc2).
Proof.
  split; eexists; (split; [reflexivity |]); simpl; repeat split.
Qed.

Lemma Z_succ_neq (z : Z) : z + 1 <> z.
Proof. lia. Qed.

(** C7, as stated, fails: after construction, assigning to the public
    member [dt], or assigning another object to the whole bundle, changes
    the fields. *)
Lemma input_fields_overwritten :
  FiniteDifferenceInput1D.ctor 0.5%float Examples.grid3 Examples.zeros3
    Examples.ones3 SolverType.ExplicitEuler SpaceDiscretizerType.Centered
    Examples.bcPlain1D
  = Constructed Examples.input1D
  /\ FiniteDifferenceInput1D.dt Examples.input1D = 0.5%float
  /\ FiniteDifferenceInput1D.dt
       (FiniteDifferenceInput1D.exec (FiniteDifferenceInput1D.Write_dt 2%float)
          Examples.input1D)
     = 2%float
  /\ FiniteDifferenceInput1D.exec (FiniteDifferenceInput1D.Write_dt 2%float)
       Examples.input1D
     <> Examples.input1D
  /\ FiniteDifferenceInput2D.solverType Examples.input2D
     = SolverType.ExplicitEuler
  /\ FiniteDifferenceInput2D.solverType
       (FiniteDifferenceInput2D.exec
          (FiniteDifferenceInput2D.Write_solverType SolverType.Null)
          Examples.input2D)
     = SolverType.Null
  /\ FiniteDifferenceInput2D.exec
       (FiniteDifferenceInput2D.Write_solverType SolverType.Null)
       Examples.input2D
     <> Examples.input2D.
Proof.
  split; [reflexivity |]. split; [reflexivity |]. split; [reflexivity |].
  split.
  - intros H. apply (f_equal FiniteDifferenceInput1D.dt) in H.
    apply (f_equal (fun d => PrimFloat.ltb d 1%float)) in H.
    vm_compute in H. discriminate H.
  - split; [reflexivity |]. split; [reflexivity |].
    intros H. apply (f_equal FiniteDifferenceInput2D.solverType) in H.
    discriminate H.
Qed.

(** C7, amended.  The input bundles are plain structs with public,
    assignable data members and defaulted assignment: a member assignment
    gives the written field the new value, assignment of a whole object
    replaces every field, and so every bundle can be changed after its
    construction. *)
Theorem FiniteDifferenceInput_fields_assignable
    (x : FiniteDifferenceInput1D.t) (y : FiniteDifferenceInput2D.t) :
  (forall v, FiniteDifferenceInput1D.dt
               (FiniteDifferenceInput1D.exec (FiniteDifferenceInput1D.Write_dt v) x) = v)
  /\ (forall v, FiniteDifferenceInput1D.grid
                  (FiniteDifferenceInput1D.exec (FiniteDifferenceInput1D.Write_grid v) x) = v)
  /\ (forall v, FiniteDifferenceInput1D.velocity
                  (FiniteDifferenceInput1D.exec (FiniteDifferenceInput1D.Write_velocity v) x) = v)
  /\ (forall v, FiniteDifferenceInput1D.diffusion
                  (FiniteDifferenceInput1D.exec (FiniteDifferenceInput1D.Write_diffusion v) x) = v)
  /\ (forall v, FiniteDifferenceInput1D.solverType
                  (FiniteDifferenceInput1D.exec (FiniteDifferenceInput1D.Write_solverType v) x) = v)
  /\ (forall v, FiniteDifferenceInput1D.spaceDiscretizerType
                  (FiniteDifferenceInput1D.exec
                     (FiniteDifferenceInput1D.Write_spaceDiscretizerType v) x) = v)
  /\ (forall v, FiniteDifferenceInput1D.boundaryConditions
                  (FiniteDifferenceInput1D.exec
                     (FiniteDifferenceInput1D.Write_boundaryConditions v) x) = v)
  /\ (forall rhs, FiniteDifferenceInput1D.exec (FiniteDifferenceInput1D.Assign rhs) x = rhs)
  /\ (exists w, FiniteDifferenceInput1D.exec w x <> x)
  /\ (forall v, FiniteDifferenceInput2D.dt
                  (FiniteDifferenceInput2D.exec (FiniteDifferenceInput2D.Write_dt v) y) = v)
  /\ (forall v, FiniteDifferenceInput2D.xGrid
                  (FiniteDifferenceInput2D.exec (FiniteDifferenceInput2D.Write_xGrid v) y) = v)
  /\ (forall v, FiniteDifferenceInput2D.yGrid
                  (FiniteDifferenceInput2D.exec (FiniteDifferenceInput2D.Write_yGrid v) y) = v)
  /\ (forall v, FiniteDifferenceInput2D.xVelocity
                  (FiniteDifferenceInput2D.exec (FiniteDifferenceInput2D.Write_xVelocity v) y) = v)
  /\ (forall v, FiniteDifferenceInput2D.yVelocity
                  (FiniteDifferenceInput2D.exec (FiniteDifferenceInput2D.Write_yVelocity v) y) = v)
  /\ (forall v, FiniteDifferenceInput2D.diffusion
                  (FiniteDifferenceInput2D.exec (FiniteDifferenceInput2D.Write_diffusion v) y) = v)
  /\ (forall v, FiniteDifferenceInput2D.solverType
                  (FiniteDifferenceInput2D.exec (FiniteDifferenceInput2D.Write_solverType v) y) = v)
  /\ (forall v, FiniteDifferenceInput2D.spaceDiscretizerType
                  (FiniteDifferenceInput2D.exec
                     (FiniteDifferenceInput2D.Write_spaceDiscretizerType v) y) = v)
  /\ (forall v, FiniteDifferenceInput2D.boundaryConditions
                  (FiniteDifferenceInput2D.exec
                     (FiniteDifferenceInput2D.Write_boundaryConditions v) y) = v)
  /\ (forall rhs, FiniteDifferenceInput2D.exec (FiniteDifferenceInput2D.Assign rhs) y = rhs)
  /\ (exists w, FiniteDifferenceInput2D.exec w y <> y).
Proof.
  repeat (split; [intros; reflexivity |]).
  split.
  - exists (FiniteDifferenceInput1D.Write_solverType
              (FiniteDifferenceInput1D.solverType x + 1)).
    intros H. apply (f_equal FiniteDifferenceInput1D.solverType) in H.
    simpl in H. exact (Z_succ_neq _ H).
  - repeat (split; [intros; reflexivity |]).
    exists (FiniteDifferenceInput2D.Write_solverType
              (FiniteDifferenceInput2D.solverType y + 1)).
    intros H. apply (f_equal FiniteDifferenceInput2D.solverType) in H.
    simpl in H. exact (Z_succ_neq _ H).
Qed.

(** ** Dispatch *)

(** One [case] label of the match: either the value is the label's, which
    the range hypothesis [Hs] excludes, or the next label is tried. *)
Local Ltac case_label s c Hs :=
  destruct (Z.eqb_spec s c) as [-> | ?];
  [exfalso; apply Hs; vm_compute; intuition discriminate |].

Lemma dispatch_in_range (s : SolverType.t) :
  1 <= s < 13 -> exists k, Dispatcher.dispatch s = Constructed k.
Proof.
  intros Hs.
  assert (Hcases : s = 1 \/ s = 2 \/ s = 3 \/ s = 4 \/ s = 5 \/ s = 6 \/ s = 7
                   \/ s = 8 \/ s = 9 \/ s = 10 \/ s = 11 \/ s = 12) by lia.
  repeat (destruct Hcases as [-> | Hcases]; [eexists; reflexivity |]).
  subst s. eexists; reflexivity.
Qed.

Lemma dispatch_out_of_range (s : SolverType.t) :
  ~ 1 <= s < 13 -> Dispatcher.dispatch s = Raised UnsupportedSolver.
Proof.
  intros Hs. unfold Dispatcher.dispatch.
  case_label s SolverType.ExplicitEuler Hs.
  case_label s SolverType.ImplicitEuler Hs.
  case_label s SolverType.CrankNicolson Hs.
  case_label s SolverType.RungeKuttaRalston Hs.
  case_label s SolverType.RungeKutta3 Hs.
  case_label s SolverType.RungeKutta4 Hs.
  case_label s SolverType.RungeKuttaThreeEight Hs.
  case_label s SolverType.RungeKuttaGaussLegendre4 Hs.
  case_label s SolverType.RichardsonExtrapolation2 Hs.
  case_label s SolverType.RichardsonExtrapolation3 Hs.
  case_label s SolverType.AdamsBashforth2 Hs.
  case_label s SolverType.AdamsMouldon2 Hs.
  reflexivity.
Qed.

Lemma dispatch_unsupported_bounds (s : SolverType.t) :
  Dispatcher.dispatch s = Raised UnsupportedSolver <-> ~ 1 <= s < 13.
Proof.
  split.
  - intros Hraised Hs.
    destruct (dispatch_in_range s Hs) as [k Hk].
    rewrite Hk in Hraised. discriminate Hraised.
  - apply dispatch_out_of_range.
Qed.

(** C4, as stated, fails: [__BEGIN__] is the value of [ExplicitEuler], one
    of the twelve families, so the markers are not disjoint from the valid
    values, and no dispatcher at all can reject [__BEGIN__] while it
    dispatches every family. *)
Lemma BEGIN_marker_is_ExplicitEuler :
  SolverType.__BEGIN__ = SolverType.ExplicitEuler
  /\ In SolverType.__BEGIN__ (map snd SolverType.families)
  /\ Dispatcher.dispatch SolverType.__BEGIN__
     = Constructed Dispatcher.StepExplicitEuler
  /\ ~ (exists advance : SolverType.t -> Outcome Dispatcher.Scheme,
          (forall s : SolverType.t,
             advance s = Raised UnsupportedSolver
             <-> s = SolverType.Null \/ s = SolverType.__BEGIN__
                 \/ s = SolverType.__END__)
          /\ (forall s : SolverType.t,
                In s (map snd SolverType.families) ->
                advance s <> Raised UnsupportedSolver)).
Proof.
  split; [reflexivity |].
  assert (Hin : In SolverType.__BEGIN__ (map snd SolverType.families))
    by (apply In_families_bounds; vm_compute; intuition discriminate).
  split; [exact Hin |]. split; [reflexivity |].
  intros [advance [Hrejects Hdispatches]].
  apply (Hdispatches SolverType.__BEGIN__ Hin).
  apply Hrejects. right. left. reflexivity.
Qed.

(** C4, amended.  Dispatch fails with [UnsupportedSolver] exactly on the
    values outside the range from [__BEGIN__] to [__END__], among them
    [Null] and [__END__]; each of the twelve families is dispatched to its
    own scheme; [Null] and [__END__] are not among the twelve valid values,
    whereas [__BEGIN__] is [ExplicitEuler] and is dispatched as such. *)
Theorem dispatch_unsupported_iff_out_of_range :
  (forall s : SolverType.t,
     Dispatcher.dispatch s = Raised UnsupportedSolver
     <-> SolverType.inRange s = false)
  /\ Dispatcher.dispatch SolverType.Null = Raised UnsupportedSolver
  /\ Dispatcher.dispatch SolverType.__END__ = Raised UnsupportedSolver
  /\ map Dispatcher.dispatch (map snd SolverType.families)
     = map Constructed
         [ Dispatcher.StepExplicitEuler; Dispatcher.StepImplicitEuler;
           Dispatcher.StepCrankNicolson; Dispatcher.StepRungeKuttaRalston;
           Dispatcher.StepRungeKutta3; Dispatcher.StepRungeKutta4;
           Dispatcher.StepRungeKuttaThreeEight;
           Dispatcher.StepRungeKuttaGaussLegendre4;
           Dispatcher.StepRichardsonExtrapolation2;
           Dispatcher.StepRichardsonExtrapolation3;
           Dispatcher.StepAdamsBashforth2; Dispatcher.StepAdamsMouldon2 ]
  /\ ~ In SolverType.Null (map snd SolverType.families)
  /\ ~ In SolverType.__END__ (map snd SolverType.families)
  /\ Dispatcher.dispatch SolverType.__BEGIN__
     = Dispatcher.dispatch SolverType.ExplicitEuler.
Proof.
  split.
  - intros s. rewrite dispatch_unsupported_bounds, <- inRange_bounds.
    destruct (SolverType.inRange s); split; intros H.
    + exfalso. apply H. reflexivity.
    + discriminate H.
    + reflexivity.
    + intros Hfalse. discriminate Hfalse.
  - split; [reflexivity |]. split; [reflexivity |]. split; [reflexivity |].
    split; [| split; [| reflexivity]];
      rewrite In_families_bounds; vm_compute; intuition discriminate.
Qed.

(* ------------------------------------------------------------------ *)
(** * Further properties of the header *)

(** ** Name resolution in SolverType *)

Lemma lookup_In (name : string) (v : SolverType.t)
    (l : list (string * SolverType.t)) :
  SolverType.lookup name l = Some v -> In (name, v) l.
Proof.
  induction l as [| [n w] rest IH]; simpl.
  - discriminate.
  - destruct (String.eqb_spec n name) as [-> | Hne].
    + intros H. injection H as ->. left. reflexivity.
    + intros H. right. apply IH, H.
Qed.




(** X2.  [ExplicitEuler] and [__BEGIN__] are the only two enumerators of
    [SolverType] that share a value: two different names that denote the
    same value are these two. *)
Theorem enumerator_only_alias (n1 n2 : string) (v : SolverType.t) :
  SolverType.enumerator n1 = Some v ->
  SolverType.enumerator n2 = Some v ->
  n1 <> n2 ->
  (n1 = "ExplicitEuler" /\ n2 = "__BEGIN__")%string
  \/ (n1 = "__BEGIN__" /\ n2 = "ExplicitEuler")%string.
Proof.
  intros H1 H2 Hne.
  apply lookup_In in H1. apply lookup_In in H2.
  cbv in H1, H2.
  repeat match goal with
         | H : _ \/ _ |- _ => destruct H as [H | H]
         | H : (_, _) = (_, _) |- _ => inversion H; clear H; subst
         | H : False |- _ => contradiction
         end;
    try (exfalso; apply Hne; reflexivity);
    auto.
Qed.

Lemma enumerator_only_alias_witness :
  SolverType.enumerator "ExplicitEuler" = Some 1
  /\ SolverType.enumerator "__BEGIN__" = Some 1
  /\ (("ExplicitEuler" = "ExplicitEuler" /\ "__BEGIN__" = "__BEGIN__")
      \/ ("ExplicitEuler" = "__BEGIN__" /\ "__BEGIN__" = "ExplicitEuler"))%string.
Proof.
  split; [reflexivity |]. split; [reflexivity |].
  apply (enumerator_only_alias "ExplicitEuler" "__BEGIN__" 1);
    [reflexivity | reflexivity | discriminate].
Defined.

(** X3.  Every value of the range from [__BEGIN__] to [__END__] is the
    value of exactly one solver family. *)
Theorem family_of_value_unique (s : SolverType.t) :
  SolverType.inRange s = true ->
  exists n : string,
    In (n, s) SolverType.families
    /\ forall n' : string, In (n', s) SolverType.families -> n' = n.
Proof.
  intros Hs. apply inRange_bounds in Hs.
  assert (Hcases : s = 1 \/ s = 2 \/ s = 3 \/ s = 4 \/ s = 5 \/ s = 6 \/ s = 7
                   \/ s = 8 \/ s = 9 \/ s = 10 \/ s = 11 \/ s = 12) by lia.
  clear Hs.
  repeat (destruct Hcases as [-> | Hcases]);
    [ exists "ExplicitEuler"%string | exists "ImplicitEuler"%string
    | exists "CrankNicolson"%string | exists "RungeKuttaRalston"%string
    | exists "RungeKutta3"%string | exists "RungeKutta4"%string
    | exists "RungeKuttaThreeEight"%string
    | exists "RungeKuttaGaussLegendre4"%string
    | exists "RichardsonExtrapolation2"%string
    | exists "RichardsonExtrapolation3"%string
    | exists "AdamsBashforth2"%string
    | subst s; exists "AdamsMouldon2"%string ];
    (split;
     [ vm_compute; tauto
     | intros n' Hin; cbv in Hin;
       repeat match goal with
              | H : _ \/ _ |- _ => destruct H as [H | H]
              | H : (_, _) = (_, _) |- _ => inversion H; clear H; subst
              | H : False |- _ => contradiction
              end;
       reflexivity ]).
Qed.

Lemma family_of_value_unique_witness :
  SolverType.inRange 12 = true
  /\ exists n : string,
       In (n, 12) SolverType.families
       /\ forall n' : string, In (n', 12) SolverType.families -> n' = n.
Proof.
  split; [reflexivity |].
  apply (family_of_value_unique 12). reflexivity.
Defined.

(** X4.  The solvers that need two retained states are the tail of the
    valid range: [getNumberOfSteps] returns 2 exactly on the values from
    [AdamsBashforth2] up to, not including, [__END__]. *)
Theorem getNumberOfSteps_two_iff_tail (s : SolverType.t) :
  getNumberOfSteps s = 2%N
  <-> SolverType.AdamsBashforth2 <= s < SolverType.__END__.
Proof.
  rewrite getNumberOfSteps_two.
  unfold SolverType.AdamsBashforth2, SolverType.AdamsMouldon2,
    SolverType.__END__.
  lia.
Qed.

(** ** The alias-free enumerations *)

(** X5.  In [SpaceDiscretizerType] and [BoundaryConditionType] no two
    enumerators share a value: the values are 0 to 3, [Null] is the one
    with value 0, and comparing two enumerators by value decides whether
    they are the same enumerator. *)
Theorem enumerations_without_alias :
  (forall x y : SpaceDiscretizerType.t,
     SpaceDiscretizerType.eqb x y = true <-> x = y)
  /\ (forall x y : BoundaryConditionType.t,
        BoundaryConditionType.eqb x y = true <-> x = y)
  /\ (forall x : SpaceDiscretizerType.t,
        0 <= SpaceDiscretizerType.value x <= 3
        /\ (SpaceDiscretizerType.value x = 0 <-> x = SpaceDiscretizerType.Null))
  /\ (forall x : BoundaryConditionType.t,
        0 <= BoundaryConditionType.value x <= 3
        /\ (BoundaryConditionType.value x = 0 <-> x = BoundaryConditionType.Null)).
Proof.
  split; [| split; [| split]].
  - intros x y. destruct x, y; split; intros H;
      solve [reflexivity | discriminate H].
  - intros x y. destruct x, y; split; intros H;
      solve [reflexivity | discriminate H].
  - intros x. destruct x; simpl; split; try lia;
      split; intros H; solve [reflexivity | discriminate H].
  - intros x. destruct x; simpl; split; try lia;
      split; intros H; solve [reflexivity | discriminate H].
Qed.

(** ** Constructors of the boundary conditions *)

(** X6.  In every call shape of the three boundary-condition constructors
    a given argument is stored as it is and an omitted one takes its
    default: [Neumann] for the type, 0.0 for the value, and the zero-flux
    condition [BoundaryCondition()] for a side. *)
Theorem BoundaryCondition_ctors_defaults
    (t : option BoundaryConditionType.t) (v : option double)
    (l r d u : option BoundaryCondition) :
  BoundaryCondition_ctor t v
  = Constructed {| type := argOr t BoundaryConditionType.Neumann;
                   value := argOr v 0%float |}
  /\ BoundaryCondition1D_ctor l r
     = Constructed {| left := argOr l zeroFlux; right := argOr r zeroFlux |}
  /\ BoundaryCondition2D_ctor l r d u
     = Constructed {| base1D := {| left := argOr l zeroFlux;
                                   right := argOr r zeroFlux |};
                      down := argOr d zeroFlux;
                      up := argOr u zeroFlux |}.
Proof.
  split; [| split].
  - destruct t, v; reflexivity.
  - destruct l, r; reflexivity.
  - destruct l, r, d, u; reflexivity.
Qed.

(** X7.  The 2D constructor delegates its first two arguments to the base
    class: converting the constructed 2D condition to its base gives what
    [BoundaryCondition1D] constructs from the same two arguments, omitted
    ones included, whatever the down and up sides are. *)
Theorem BoundaryCondition2D_ctor_base (l r d u : option BoundaryCondition) :
  (b <- BoundaryCondition2D_ctor l r d u ;;
   Constructed (b : BoundaryCondition1D))
  = BoundaryCondition1D_ctor l r.
Proof.
  destruct (BoundaryCondition_ctors_defaults None None l r d u)
    as [_ [H1 H2]].
  rewrite H1, H2. reflexivity.
Qed.

(** X8.  Construction loses nothing: building a boundary condition or an
    input bundle from the fields read off an existing object gives that
    object back. *)
Theorem ctor_of_fields
    (c : BoundaryCondition) (b1 : BoundaryCondition1D)
    (b2 : BoundaryCondition2D)
    (x : FiniteDifferenceInput1D.t) (y : FiniteDifferenceInput2D.t) :
  BoundaryCondition_ctor (Some (type c)) (Some (value c)) = Constructed c
  /\ BoundaryCondition1D_ctor (Some (left b1)) (Some (right b1))
     = Constructed b1
  /\ BoundaryCondition2D_ctor (Some (left b2)) (Some (right b2))
       (Some (down b2)) (Some (up b2))
     = Constructed b2
  /\ FiniteDifferenceInput1D.ctor
       (FiniteDifferenceInput1D.dt x) (FiniteDifferenceInput1D.grid x)
       (FiniteDifferenceInput1D.velocity x)
       (FiniteDifferenceInput1D.diffusion x)
       (FiniteDifferenceInput1D.solverType x)
       (FiniteDifferenceInput1D.spaceDiscretizerType x)
       (FiniteDifferenceInput1D.boundaryConditions x)
     = Constructed x
  /\ FiniteDifferenceInput2D.ctor
       (FiniteDifferenceInput2D.dt y) (FiniteDifferenceInput2D.xGrid y)
       (FiniteDifferenceInput2D.yGrid y)
       (FiniteDifferenceInput2D.xVelocity y)
       (FiniteDifferenceInput2D.yVelocity y)
       (FiniteDifferenceInput2D.diffusion y)
       (FiniteDifferenceInput2D.solverType y)
       (FiniteDifferenceInput2D.spaceDiscretizerType y)
       (FiniteDifferenceInput2D.boundaryConditions y)
     = Constructed y.
Proof.
  destruct c, b1, b2 as [[bl br] bd bu], x, y.
  split; [reflexivity |]. split; [reflexivity |]. split; [reflexivity |].
  split; reflexivity.
Qed.

(** ** Passing a 2D condition where a 1D condition is expected *)

(** X9.  The 1D input bundle takes its boundary conditions by value as a
    [BoundaryCondition1D]; a [BoundaryCondition2D] passed there is cut
    down to its base: the bundle holds only the left and right sides, so
    two 2D conditions with the same left and right sides give the same
    bundle whatever their down and up sides are. *)
Theorem FiniteDifferenceInput1D_slices
    (dt : double) (grid velocity diffusion : MemoryBuffer)
    (solverType : SolverType.t)
    (spaceDiscretizerType : SpaceDiscretizerType.t)
    (b b' : BoundaryCondition2D) :
  left b = left b' ->
  right b = right b' ->
  FiniteDifferenceInput1D.ctor dt grid velocity diffusion solverType
    spaceDiscretizerType b
  = FiniteDifferenceInput1D.ctor dt grid velocity diffusion solverType
      spaceDiscretizerType b'
  /\ FiniteDifferenceInput1D.ctor dt grid velocity diffusion solverType
       spaceDiscretizerType b
     = FiniteDifferenceInput1D.ctor dt grid velocity diffusion solverType
         spaceDiscretizerType {| left := left b; right := right b |}.
Proof.
  destruct b as [[bl br] bd bu], b' as [[bl' br'] bd' bu']. simpl.
  intros -> ->. split; reflexivity.
Qed.

Lemma FiniteDifferenceInput1D_slices_witness :
  down Examples.bcPlain2D <> down Examples.bcMixed2D
  /\ FiniteDifferenceInput1D.ctor 0.5%float Examples.grid3 Examples.zeros3
       Examples.ones3 SolverType.ExplicitEuler SpaceDiscretizerType.Centered
       Examples.bcPlain2D
     = FiniteDifferenceInput1D.ctor 0.5%float Examples.grid3 Examples.zeros3
         Examples.ones3 SolverType.ExplicitEuler SpaceDiscretizerType.Centered
         Examples.bcMixed2D.
Proof.
  split.
  - intros H. apply (f_equal type) in H. discriminate H.
  - apply (FiniteDifferenceInput1D_slices 0.5%float Examples.grid3
             Examples.zeros3 Examples.ones3 SolverType.ExplicitEuler
             SpaceDiscretizerType.Centered
             Examples.bcPlain2D Examples.bcMixed2D);
      reflexivity.
Defined.

(** ** Assignments to an input bundle *)





(** X12.  The defaulted copy assignment is member-wise: assigning the
    members of [rhs] one after the other, in declaration order, to any
    object has the effect of assigning [rhs] as a whole, and leaves the
    object equal to [rhs]. *)
Theorem memberwise_is_assign
    (x rhs : FiniteDifferenceInput1D.t) (y rhs' : FiniteDifferenceInput2D.t) :
  run1D (memberwise1D rhs) x
  = FiniteDifferenceInput1D.exec (FiniteDifferenceInput1D.Assign rhs) x
  /\ run1D (memberwise1D rhs) x = rhs
  /\ run2D (memberwise2D rhs') y
     = FiniteDifferenceInput2D.exec (FiniteDifferenceInput2D.Assign rhs') y
  /\ run2D (memberwise2D rhs') y = rhs'.
Proof.
  destruct x, rhs, y, rhs'. repeat split.
Qed.


